(** * Gemini Canvas App: prompt building, request handlers and start-up

    A shallow embedding of [gemini_canvas_app.py] (the FastAPI service) and
    of [app_streamlit.py] (the interactive script), with the properties the
    specification states about them.

    Modelling choices, all taken from the code:
    - a Python [str] is a sequence of Unicode code points, [list N];
      ASCII literals of the source are written with [lit "..."];
    - [str.strip()] removes leading and trailing code points for which
      [str.isspace] holds;
    - [prompt_map] is a Python dict, modelled as a [gmap] keyed by strings;
    - a handler is a finite tree of external interactions (the calls to the
      hosted model, the logger), with raised exceptions and [try]/[except]
      written out; running a tree against a world yields the trace of
      interactions and the handler's outcome. *)

From Stdlib Require Import String Ascii NArith List Bool Lia.
From stdpp Require Import base option list countable gmap fin_maps.

Local Open Scope N_scope.
Local Open Scope list_scope.

(** ** Python strings *)

Module PyStr.

(** A Python string: its code points, in order. *)
Abbreviation pystr := (list N).

(** The code points of an ASCII literal of the source. *)
Definition lit (s : string) : pystr :=
  List.map N_of_ascii (list_ascii_of_string s).
#[global] Arguments lit : simpl never.

(** [str.isspace] on one code point: the characters of bidirectional type
    WS, B or S and of category Zs. *)
Definition isspace (c : N) : bool :=
  ((9 <=? c) && (c <=? 13))
  || ((28 <=? c) && (c <=? 32))
  || (c =? 133) || (c =? 160) || (c =? 5760)
  || ((8192 <=? c) && (c <=? 8202))
  || (c =? 8232) || (c =? 8233) || (c =? 8239) || (c =? 8287)
  || (c =? 12288).

(** [s.lstrip()] *)
Fixpoint lstrip (s : pystr) : pystr :=
  match s with
  | [] => []
  | c :: s' => if isspace c then lstrip s' else s
  end.

(** [s.rstrip()] *)
Definition rstrip (s : pystr) : pystr := rev (lstrip (rev s)).

(** [s.strip()] *)
Definition strip (s : pystr) : pystr := rstrip (lstrip s).

(** Truth value of a string: [bool(s)], false exactly for the empty one. *)
Definition truthy (s : pystr) : bool :=
  match s with [] => false | _ :: _ => true end.

(** Truth value of an [Optional[str]]: [None] and [""] are false. *)
Definition truthy_opt (o : option pystr) : bool :=
  match o with None => false | Some s => truthy s end.

(** Every code point of [s] is white space (true for the empty string). *)
Definition blank (s : pystr) : bool := forallb isspace s.

(** [needle in hay]: [needle] occurs as a contiguous run of [hay]. *)
Definition occurs_in (needle hay : pystr) : Prop :=
  exists before after, hay = before ++ needle ++ after.

(** Executable substring test. *)
Fixpoint starts_with (p s : pystr) : bool :=
  match p, s with
  | [], _ => true
  | _ :: _, [] => false
  | a :: p', b :: s' => (a =? b) && starts_with p' s'
  end.

Fixpoint contains (needle hay : pystr) : bool :=
  starts_with needle hay ||
  match hay with
  | [] => false
  | _ :: hay' => contains needle hay'
  end.

End PyStr.
Export PyStr.

(** ** Requests *)

(** [class TextRequest(BaseModel)] *)
Record TextRequest := mkTextRequest {
  text : pystr;
  action : pystr;
  style : option pystr
}.

(** [class GenerateRequest(BaseModel)]; a request that leaves [max_tokens]
    out is built with [default_max_tokens]. *)
Record GenerateRequest := mkGenerateRequest {
  prompt : pystr;
  max_tokens : option Z
}.

Definition default_max_tokens : option Z := Some 1000%Z.

(** ** The prompt builder of [process_text] *)

Definition NL : pystr := [10].

(** Lines 66-68: the style clause, empty unless [req.style] is truthy. *)
Definition style_modifier (req : TextRequest) : pystr :=
  if truthy_opt (style req)
  then lit " Make the tone " ++ default [] (style req) ++ lit "."
  else [].

(** Lines 70-76: the dict of the five formatted prompts. *)
Definition prompt_map (req : TextRequest) : gmap pystr pystr :=
  let sm := style_modifier req in
  <[ lit "rewrite" :=
       lit "Rewrite the following text in a clear, concise manner" ++ sm
       ++ lit ":" ++ NL ++ NL ++ text req ]>
  (<[ lit "summarize" :=
       lit "Summarize the following text concisely" ++ sm
       ++ lit ":" ++ NL ++ NL ++ text req ]>
  (<[ lit "expand" :=
       lit "Expand the following into more detailed content" ++ sm
       ++ lit ":" ++ NL ++ NL ++ text req ]>
  (<[ lit "improve" :=
       lit "Improve the following text for clarity and engagement" ++ sm
       ++ lit ":" ++ NL ++ NL ++ text req ]>
  (<[ lit "simplify" :=
       lit "Simplify the following text to make it easier to understand" ++ sm
       ++ lit ":" ++ NL ++ NL ++ text req ]>
  ∅)))).

(** Line 78: [prompt_map.get(req.action)]. *)
Definition built_prompt (req : TextRequest) : option pystr :=
  prompt_map req !! action req.

(** ** Exceptions, external calls and handlers *)

(** The exceptions the handlers see, all subclasses of [Exception]:
    FastAPI's [HTTPException], and any other one, kept with its message
    [str(e)]. *)
Inductive exn :=
| HTTPException (status_code : N) (detail : pystr)
| Exception (message : pystr).

(** What a call that may raise gives back. *)
Inductive reply (A : Type) :=
| Returns (a : A)
| Raises (e : exn).
Arguments Returns {A} a.
Arguments Raises {A} e.

(** The wrapper the hosted model returns; only its text field is read.  A
    [text] accessor that raises is a call that raises. *)
Record ModelResponse := mkModelResponse { response_text : pystr }.

Inductive level := INFO | ERROR.

(** The interactions of a handler with the outside. *)
Inductive call : Type -> Type :=
| model_generate_content (p : pystr) : call (reply ModelResponse)
| genai_list_models : call (reply (list pystr))
| logger (lv : level) (msg : pystr) : call unit.

(** A handler body: it returns, raises, or performs a call and goes on
    with the answer. *)
Inductive handler (A : Type) : Type :=
| Return (a : A)
| Raise (e : exn)
| Do {X : Type} (c : call X) (k : X -> handler A).
Arguments Return {A} a.
Arguments Raise {A} e.
Arguments Do {A X} c k.

Fixpoint bind {A B} (m : handler A) (f : A -> handler B) : handler B :=
  match m with
  | Return a => f a
  | Raise e => Raise e
  | Do c k => Do c (fun x => bind (k x) f)
  end.

(** [try: m except Exception as e: h e] *)
Fixpoint try_except {A} (m : handler A) (h : exn -> handler A) : handler A :=
  match m with
  | Return a => Return a
  | Raise e => h e
  | Do c k => Do c (fun x => try_except (k x) h)
  end.

(** A call whose exception propagates. *)
Definition perform {A} (c : call (reply A)) : handler A :=
  Do c (fun r => match r with Returns a => Return a | Raises e => Raise e end).

Definition log (lv : level) (msg : pystr) : handler unit :=
  Do (logger lv msg) Return.

(** Sequencing, written [x ← m; k] and [m;; k]. *)
#[global] Instance handler_ret : MRet handler := fun A a => Return a.
#[global] Instance handler_bind : MBind handler := fun A B f m => bind m f.

(** ** Running a handler *)

(** The outside world of one request: what the hosted model answers to a
    prompt and what the model listing answers. *)
Record world := mkWorld {
  generate_content_reply : pystr -> reply ModelResponse;
  list_models_reply : reply (list pystr)
}.

Inductive event :=
| EGenerate (p : pystr)
| EListModels
| ELog (lv : level) (msg : pystr).

Definition answer (w : world) {X} (c : call X) : X :=
  match c in call T return T with
  | model_generate_content p => generate_content_reply w p
  | genai_list_models => list_models_reply w
  | logger _ _ => tt
  end.

Definition event_of {X} (c : call X) : event :=
  match c with
  | model_generate_content p => EGenerate p
  | genai_list_models => EListModels
  | logger lv msg => ELog lv msg
  end.

(** The trace of interactions and the outcome of a handler in a world. *)
Fixpoint run {A} (w : world) (m : handler A) : list event * reply A :=
  match m with
  | Return a => ([], Returns a)
  | Raise e => ([], Raises e)
  | Do c k => let '(t, r) := run w (k (answer w c)) in (event_of c :: t, r)
  end.

Definition trace {A} (w : world) (m : handler A) : list event := fst (run w m).
Definition outcome {A} (w : world) (m : handler A) : reply A := snd (run w m).

Definition is_api_call (e : event) : bool :=
  match e with
  | EGenerate _ | EListModels => true
  | ELog _ _ => false
  end.

(** The calls to the external API in a trace, in order. *)
Definition api_calls (t : list event) : list event := List.filter is_api_call t.

(** ** HTTP view of an outcome *)

(** A JSON value of a response body. *)
Inductive json :=
| JNull
| JStr (s : pystr)
| JStrs (l : list pystr).

(** A response body: a Python dict literal, its keys in order. *)
Definition body := list (pystr * json).

Definition opt_json (o : option pystr) : json :=
  match o with None => JNull | Some s => JStr s end.

(** The status FastAPI answers with: 200 for a returned body, the status
    of a raised [HTTPException], 500 for any other exception. *)
Definition http_status (r : reply body) : N :=
  match r with
  | Returns _ => 200
  | Raises (HTTPException s _) => s
  | Raises (Exception _) => 500
  end.

(** The detail string of an error answer, if the outcome is one. *)
Definition http_detail (r : reply body) : option pystr :=
  match r with
  | Raises (HTTPException _ d) => Some d
  | _ => None
  end.

(** ** The request handlers of [gemini_canvas_app.py] *)

Section Handlers.

(** [str(e)] for an [HTTPException] is decided by the installed framework
    version (the empty string in older releases, status and detail in newer
    ones); the handlers are studied for any such rendering. *)
Variable str_HTTPException : N -> pystr -> pystr.

(** [str(e)] *)
Definition str (e : exn) : pystr :=
  match e with
  | HTTPException s d => str_HTTPException s d
  | Exception m => m
  end.

(** [POST /process] *)
Definition process_text (req : TextRequest) : handler body :=
  if negb (truthy (strip (text req))) then
    Raise (HTTPException 400 (lit "Text cannot be empty"))
  else
    match built_prompt req with
    | None =>
        Raise (HTTPException 400 (lit "Unsupported action: " ++ action req))
    | Some prompt =>
        if negb (truthy prompt) then
          Raise (HTTPException 400 (lit "Unsupported action: " ++ action req))
        else
          try_except
            (response ← perform (model_generate_content prompt);
             if negb (truthy (response_text response)) then
               Raise (HTTPException 500 (lit "No response generated"))
             else
               log INFO (lit "Successfully processed text with action: "
                         ++ action req);;
               mret [ (lit "result", JStr (response_text response));
                      (lit "action", JStr (action req));
                      (lit "style", opt_json (style req)) ])
            (fun e =>
               log ERROR (lit "Error processing text: " ++ str e);;
               Raise (HTTPException 500
                        (lit "Error processing text: " ++ str e)))
    end.

(** [POST /generate] *)
Definition generate_content (req : GenerateRequest) : handler body :=
  if negb (truthy (strip (prompt req))) then
    Raise (HTTPException 400 (lit "Prompt cannot be empty"))
  else
    try_except
      (response ← perform (model_generate_content (prompt req));
       if negb (truthy (response_text response)) then
         Raise (HTTPException 500 (lit "No content generated"))
       else
         log INFO (lit "Successfully generated new content");;
         mret [ (lit "result", JStr (response_text response));
                (lit "prompt", JStr (prompt req)) ])
      (fun e =>
         log ERROR (lit "Error generating content: " ++ str e);;
         Raise (HTTPException 500
                  (lit "Error generating content: " ++ str e))).

(** [GET /health] *)
Definition health_check : handler body :=
  mret [ (lit "status", JStr (lit "healthy"));
         (lit "service", JStr (lit "Gemini Canvas App")) ].

(** [GET /models] *)
Definition list_models : handler body :=
  try_except
    (model_names ← perform genai_list_models;
     mret [ (lit "models", JStrs model_names) ])
    (fun e =>
       log ERROR (lit "Error listing models: " ++ str e);;
       Raise (HTTPException 500 (lit "Error listing models: " ++ str e))).

(** *** What a handler does once validation has passed, by the answer of
    the hosted model; the run lemmas below relate the handlers to these *)

(** The three ways [process_text] can go after validation. *)
Definition process_reply (req : TextRequest) (r : reply ModelResponse)
  : list event * reply body :=
  match r with
  | Raises e =>
      ([ELog ERROR (lit "Error processing text: " ++ str e)],
       Raises (HTTPException 500 (lit "Error processing text: " ++ str e)))
  | Returns response =>
      if truthy (response_text response) then
        ([ELog INFO (lit "Successfully processed text with action: "
                     ++ action req)],
         Returns [ (lit "result", JStr (response_text response));
                   (lit "action", JStr (action req));
                   (lit "style", opt_json (style req)) ])
      else
        let e := HTTPException 500 (lit "No response generated") in
        ([ELog ERROR (lit "Error processing text: " ++ str e)],
         Raises (HTTPException 500 (lit "Error processing text: " ++ str e)))
  end.

(** The ways [generate_content] can go after validation. *)
Definition generate_reply (req : GenerateRequest) (r : reply ModelResponse)
  : list event * reply body :=
  match r with
  | Raises e =>
      ([ELog ERROR (lit "Error generating content: " ++ str e)],
       Raises (HTTPException 500 (lit "Error generating content: " ++ str e)))
  | Returns response =>
      if truthy (response_text response) then
        ([ELog INFO (lit "Successfully generated new content")],
         Returns [ (lit "result", JStr (response_text response));
                   (lit "prompt", JStr (prompt req)) ])
      else
        let e := HTTPException 500 (lit "No content generated") in
        ([ELog ERROR (lit "Error generating content: " ++ str e)],
         Raises (HTTPException 500 (lit "Error generating content: " ++ str e)))
  end.

End Handlers.

(** ** The five actions and their template texts *)

(** The literal text each entry of [prompt_map] starts with, by action. *)
Definition templates : list (pystr * pystr) :=
  [ (lit "rewrite",
     lit "Rewrite the following text in a clear, concise manner");
    (lit "summarize",
     lit "Summarize the following text concisely");
    (lit "expand",
     lit "Expand the following into more detailed content");
    (lit "improve",
     lit "Improve the following text for clarity and engagement");
    (lit "simplify",
     lit "Simplify the following text to make it easier to understand") ].

Definition recognized_actions : list pystr := List.map fst templates.

(** What follows the template and the style clause: a colon and an empty
    line. *)
Definition separator : pystr := lit ":" ++ NL ++ NL.

(** The clause the specification names, for a style [s]. *)
Definition style_clause (s : pystr) : pystr :=
  lit " Make the tone " ++ s ++ lit ".".

(** ** Start-up of the two entry points *)

(** The process environment, [os.environ]. *)
Abbreviation environ := (gmap pystr pystr).

Definition GEMINI_API_KEY : pystr := lit "GEMINI_API_KEY".

(** [dotenv.load_dotenv()]: the variables of the [.env] file are added to
    the environment; a variable that is already set keeps its value. *)
Definition load_dotenv (dotenv_file : environ) (env : environ) : environ :=
  env ∪ dotenv_file.

(** [os.getenv(name)] *)
Definition getenv (env : environ) (name : pystr) : option pystr := env !! name.

(** What the service holds once its module has been loaded. *)
Record service := mkService {
  configured_api_key : pystr;
  model_name : pystr
}.

Inductive startup_result :=
| Started (s : service)
| StartupFailed (logged : pystr) (value_error : pystr).

(** Lines 14-29 of [gemini_canvas_app.py], run when the module is loaded. *)
Definition startup (dotenv_file env : environ) : startup_result :=
  let env := load_dotenv dotenv_file env in
  let API_KEY := getenv env GEMINI_API_KEY in
  if negb (truthy_opt API_KEY) then
    StartupFailed (lit "GEMINI_API_KEY environment variable not set")
                  (lit "Please set GEMINI_API_KEY environment variable")
  else
    Started (mkService (default [] API_KEY) (lit "gemini-2.5-flash")).

(** The request [app_streamlit.py] sends through its client. *)
Record client_request := mkClientRequest {
  api_key : pystr;
  model : pystr;
  contents : pystr
}.

(** What the script shows on the page. *)
Inductive widget :=
| st_title (s : pystr)
| st_text_area (label : pystr)
| st_button (label : pystr)
| st_subheader (s : pystr)
| st_write (s : pystr)
| st_error (s : pystr).

Section Streamlit.

(** The string literal given as [api_key] on line 11 of [app_streamlit.py].
    It is a credential and is not reproduced here: the script is studied
    for any literal. *)
Variable embedded_key : pystr.

(** The hosted model as the script sees it: the text of the response, or
    the message of the exception raised. *)
Variable client_generate_content : client_request -> pystr + pystr.

(** One run of [app_streamlit.py]: [prompt] is the content of the text
    area, [submit] whether the button was pressed.  The result is the
    requests sent and the widgets shown. *)
Definition app_streamlit (prompt : pystr) (submit : bool)
  : list client_request * list widget :=
  let page := [ st_title (lit "Gemini Canvas Prompt");
                st_text_area (lit "Enter your prompt:");
                st_button (lit "Submit") ] in
  if submit then
    if truthy prompt then
      let request := mkClientRequest embedded_key (lit "gemini-2.0-flash") prompt in
      match client_generate_content request with
      | inl response_text =>
          ([request],
           page ++ [ st_subheader (lit "Response:"); st_write response_text ])
      | inr message =>
          ([request], page ++ [ st_error (lit "Error: " ++ message) ])
      end
    else ([], page)
  else ([], page).

End Streamlit.

(** ** The test page served by [get_frontend] *)

(** The strings of the page's script are taken by their code points, as the
    service receives them once the JSON body has been decoded. *)

(** What [String.prototype.trim] removes: the WhiteSpace and LineTerminator
    code points of ECMAScript (tab, vertical tab, form feed, the byte order
    mark, category Zs; line feed, carriage return, line and paragraph
    separator). *)
Definition js_whitespace (c : N) : bool :=
  ((9 <=? c) && (c <=? 13))
  || (c =? 32) || (c =? 160) || (c =? 5760)
  || ((8192 <=? c) && (c <=? 8202))
  || (c =? 8232) || (c =? 8233) || (c =? 8239) || (c =? 8287)
  || (c =? 12288) || (c =? 65279).

Fixpoint js_trimStart (s : pystr) : pystr :=
  match s with
  | [] => []
  | c :: s' => if js_whitespace c then js_trimStart s' else s
  end.

(** [s.trim()] *)
Definition js_trim (s : pystr) : pystr :=
  rev (js_trimStart (rev (js_trimStart s))).

(** The values of the [option] elements of the two [select] controls. *)
Definition action_options : list pystr :=
  [ lit "rewrite"; lit "summarize"; lit "expand"; lit "improve";
    lit "simplify" ].

Definition style_options : list pystr :=
  [ lit ""; lit "formal"; lit "casual"; lit "professional"; lit "creative" ].

(** What [processText()] does first: an alert, or the POST to [/process]. *)
Inductive page_step :=
| alert (msg : pystr)
| fetch_process (req : TextRequest).

(** [processText()] up to its [fetch]: [text], [action] and [style] are the
    values of the text area and of the two [select] controls; the body is
    [JSON.stringify({ text, action, style })], so [style] is always a
    string. *)
Definition processText (text action style : pystr) : page_step :=
  if negb (truthy (js_trim text)) then alert (lit "Please enter some text")
  else fetch_process (mkTextRequest text action (Some style)).

(** ** Reading traces and outcomes *)

(** The lines written to the logger in a trace, in order. *)
Definition log_lines (t : list event) : list event :=
  List.filter (fun e => negb (is_api_call e)) t.


(** The log lines that go with an outcome: [on_success] for a returned
    body, one ERROR line repeating the detail for a status 500, none for
    any other error. *)
Definition logged_for (on_success : list event) (r : reply body) : list event :=
  match r with
  | Returns _ => on_success
  | Raises (HTTPException s d) => if s =? 500 then [ELog ERROR d] else []
  | Raises (Exception _) => []
  end.

(** The code points that [str.isspace] accepts and the page's [trim] does
    not remove: the four information separators and NEL. *)
Definition python_only_space (c : N) : bool :=
  ((28 <=? c) && (c <=? 31)) || (c =? 133).

(** ** Outcomes and worlds used in the statements *)

(** The outcome is a server error whose detail is [d] and holds [msg]. *)
Definition server_error_with (r : reply body) (d msg : pystr) : Prop :=
  r = Raises (HTTPException 500 d)
  /\ http_status r = 500
  /\ occurs_in msg d.

(** A world that answers the prompt [p] by raising [e], and is [w]
    elsewhere. *)
Definition raising_at (w : world) (p : pystr) (e : exn) : world :=
  mkWorld (fun q => if decide (q = p) then Raises e
                    else generate_content_reply w q)
          (list_models_reply w).

(** ** Sample requests and worlds *)

(** The request used in the examples below. *)
Definition hi_request (sty : option pystr) : TextRequest :=
  mkTextRequest (lit "hi") (lit "rewrite") sty.

(** A rendering of [str(e)] for [HTTPException]: its detail. *)
Definition detail_str (status_code : N) (detail : pystr) : pystr := detail.

(** A world where the hosted model answers "ok" and lists one model. *)
Definition answering_world : world :=
  mkWorld (fun _ => Returns (mkModelResponse (lit "ok")))
          (Returns [lit "models/gemini-2.5-flash"]).

(** A world where every call to the external API raises. *)
Definition quota : exn := Exception (lit "quota exceeded").
Definition failing_world : world := mkWorld (fun _ => Raises quota) (Raises quota).

(** A world where the hosted model answers with an empty text. *)
Definition silent_world : world :=
  mkWorld (fun _ => Returns (mkModelResponse [])) (Returns []).

Definition rewrite_template : pystr :=
  lit "Rewrite the following text in a clear, concise manner".

Definition blank_request : TextRequest :=
  mkTextRequest (lit "   ") (lit "rewrite") None.

Definition unknown_request : TextRequest :=
  mkTextRequest (lit "hi") (lit "unknown") None.

Definition hi_prompt : pystr := rewrite_template ++ separator ++ lit "hi".

(** * Properties *)

(** ** Strings *)

Lemma lstrip_nil_blank (s : pystr) : lstrip s = [] <-> blank s = true.
Proof.
  induction s as [|c s IH]; simpl; [tauto|].
  destruct (isspace c); simpl; [exact IH|].
  split; discriminate.
Qed.

Lemma lstrip_blank_nil (s : pystr) : blank (lstrip s) = true -> lstrip s = [].
Proof.
  induction s as [|c s IH]; simpl; [reflexivity|].
  destruct (isspace c) eqn:Hc; [exact IH|].
  simpl. rewrite Hc. discriminate.
Qed.

Lemma blank_rev (s : pystr) : blank (rev s) = blank s.
Proof.
  unfold blank. induction s as [|c s IH]; simpl; [reflexivity|].
  rewrite forallb_app, IH. simpl. rewrite andb_true_r. apply andb_comm.
Qed.

(** [not s.strip()] holds exactly for the strings made of white space. *)
Lemma strip_nil_blank (s : pystr) : strip s = [] <-> blank s = true.
Proof.
  unfold strip, rstrip. split.
  - intros H. apply (f_equal (@rev N)) in H. rewrite rev_involutive in H.
    simpl in H. apply lstrip_nil_blank in H. rewrite blank_rev in H.
    apply lstrip_nil_blank. now apply lstrip_blank_nil.
  - intros H. apply lstrip_nil_blank in H. rewrite H. reflexivity.
Qed.

Lemma truthy_strip (s : pystr) : truthy (strip s) = negb (blank s).
Proof.
  destruct (blank s) eqn:Hb.
  - apply strip_nil_blank in Hb. now rewrite Hb.
  - destruct (strip s) eqn:Hs; [|reflexivity].
    apply strip_nil_blank in Hs. congruence.
Qed.

Lemma truthy_app_l (a b : pystr) : truthy a = true -> truthy (a ++ b) = true.
Proof. destruct a; [discriminate | reflexivity]. Qed.

Lemma occurs_in_app_r (x a b : pystr) : occurs_in x (a ++ x ++ b).
Proof. now exists a, b. Qed.

Lemma occurs_in_suffix (x a : pystr) : occurs_in x (a ++ x).
Proof. exists a, []. now rewrite app_nil_r. Qed.

Lemma starts_with_spec (p s : pystr) :
  starts_with p s = true <-> p `prefix_of` s.
Proof.
  revert s. induction p as [|a p IH]; intros s; simpl.
  - split; [intros _; apply prefix_nil | reflexivity].
  - destruct s as [|b s].
    + split; [discriminate | intros [k Hk]; discriminate Hk].
    + rewrite andb_true_iff, N.eqb_eq, IH. split.
      * intros [-> H]. now apply prefix_cons.
      * intros [k Hk]. injection Hk as -> ->. split; [reflexivity|].
        now exists k.
Qed.

(** [contains] decides [occurs_in]. *)
Lemma contains_spec (needle hay : pystr) :
  contains needle hay = true <-> occurs_in needle hay.
Proof.
  induction hay as [|c hay IH]; simpl.
  - rewrite orb_false_r, starts_with_spec. split.
    + intros [k Hk]. exists [], k. exact Hk.
    + intros [b [a H]]. destruct b; [now exists a|discriminate H].
  - rewrite orb_true_iff, starts_with_spec, IH. split.
    + intros [[k Hk]|[b [a H]]].
      * exists [], k. exact Hk.
      * exists (c :: b), a. simpl. now rewrite H.
    + intros [b [a H]]. destruct b as [|c' b].
      * left. now exists a.
      * right. injection H as _ H. now exists b, a.
Qed.

Lemma not_occurs_in (needle hay : pystr) :
  contains needle hay = false -> ~ occurs_in needle hay.
Proof. intros H Ho. apply contains_spec in Ho. congruence. Qed.

(** ** The prompt builder *)

Ltac lit_neq :=
  let H := fresh in intros H; vm_compute in H; discriminate H.

Ltac each_template H :=
  unfold templates in H;
  repeat (destruct H as [H|H]; [injection H as <- <- | ]);
  [ .. | destruct H ].

(** The entry of [prompt_map] for a recognized action: its template text,
    the style clause if any, the separator, the text. *)
Lemma built_prompt_recognized (req : TextRequest) (tpl : pystr) :
  In (action req, tpl) templates ->
  built_prompt req = Some (tpl ++ style_modifier req ++ separator ++ text req).
Proof.
  intros H. unfold built_prompt, prompt_map.
  remember (action req) as a eqn:Ha. clear Ha.
  each_template H;
    repeat (rewrite lookup_insert_ne by lit_neq);
    rewrite lookup_insert_eq; reflexivity.
Qed.

Lemma recognized_has_template (a : pystr) :
  In a recognized_actions <-> exists tpl, In (a, tpl) templates.
Proof.
  unfold recognized_actions. rewrite in_map_iff. split.
  - intros [[a' tpl] [<- H]]. now exists tpl.
  - intros [tpl H]. now exists (a, tpl).
Qed.

(** [prompt_map] has no entry for any other action. *)
Lemma built_prompt_unrecognized (req : TextRequest) :
  ~ In (action req) recognized_actions -> built_prompt req = None.
Proof.
  intros H. unfold built_prompt, prompt_map.
  repeat (rewrite lookup_insert_ne;
          [| intros E; apply H; rewrite <- E; vm_compute; tauto ]).
  apply lookup_empty.
Qed.

Lemma built_prompt_None (req : TextRequest) :
  built_prompt req = None <-> ~ In (action req) recognized_actions.
Proof.
  split; [| apply built_prompt_unrecognized].
  intros HN HI. apply recognized_has_template in HI as [tpl HI].
  rewrite (built_prompt_recognized _ _ HI) in HN. discriminate.
Qed.

Lemma template_truthy (a tpl : pystr) :
  In (a, tpl) templates -> truthy tpl = true.
Proof. intros H. each_template H; reflexivity. Qed.

(** A built prompt is never the empty string, so the test [not prompt] of
    line 79 fails exactly when the action has no entry. *)
Lemma built_prompt_truthy (req : TextRequest) (p : pystr) :
  built_prompt req = Some p -> truthy p = true.
Proof.
  intros Hp.
  destruct (in_dec (fun x y : pystr => decide (x = y))
              (action req) recognized_actions)
    as [HI|HI].
  - apply recognized_has_template in HI as [tpl HI].
    rewrite (built_prompt_recognized _ _ HI) in Hp. injection Hp as <-.
    apply truthy_app_l. eapply template_truthy, HI.
  - apply built_prompt_unrecognized in HI. congruence.
Qed.

(** ** Running the handlers *)

Section Running.

Variable str_HTTPException : N -> pystr -> pystr.

Implicit Types (w : world) (req : TextRequest) (p : pystr).

Local Abbreviation str_ := (str str_HTTPException).
Local Abbreviation process := (process_text str_HTTPException).
Local Abbreviation generate := (generate_content str_HTTPException).
Local Abbreviation process_reply := (process_reply str_HTTPException).
Local Abbreviation generate_reply := (generate_reply str_HTTPException).

(** [process_text] on a request that passes validation: one call to the
    hosted model with the built prompt, then one log line and the answer. *)
Lemma run_process_text_valid (w : world) (req : TextRequest) (p : pystr) :
  blank (text req) = false ->
  built_prompt req = Some p ->
  run w (process req)
  = (EGenerate p :: fst (process_reply req (generate_content_reply w p)),
     snd (process_reply req (generate_content_reply w p))).
Proof.
  intros Hb Hp. unfold process_text.
  rewrite truthy_strip, Hb, Hp. simpl negb. cbv iota.
  rewrite (built_prompt_truthy _ _ Hp). simpl.
  destruct (generate_content_reply w p) as [[t]|e]; simpl; [|reflexivity].
  destruct t; reflexivity.
Qed.

Lemma run_process_text_blank (w : world) (req : TextRequest) :
  blank (text req) = true ->
  run w (process req)
  = ([], Raises (HTTPException 400 (lit "Text cannot be empty"))).
Proof.
  intros Hb. unfold process_text.
  rewrite truthy_strip, Hb. reflexivity.
Qed.

Lemma run_process_text_unrecognized (w : world) (req : TextRequest) :
  blank (text req) = false ->
  ~ In (action req) recognized_actions ->
  run w (process req)
  = ([], Raises (HTTPException 400
                   (lit "Unsupported action: " ++ action req))).
Proof.
  intros Hb Ha. unfold process_text.
  rewrite truthy_strip, Hb, (built_prompt_unrecognized _ Ha). reflexivity.
Qed.

Lemma api_calls_process_reply (req : TextRequest) (r : reply ModelResponse) :
  api_calls (fst (process_reply req r)) = [].
Proof.
  destruct r as [[t]|e]; simpl; [|reflexivity]. destruct t; reflexivity.
Qed.

Lemma run_generate_content_valid (w : world) (req : GenerateRequest) :
  blank (prompt req) = false ->
  run w (generate req)
  = (EGenerate (prompt req)
       :: fst (generate_reply req (generate_content_reply w (prompt req))),
     snd (generate_reply req (generate_content_reply w (prompt req)))).
Proof.
  intros Hb. unfold generate_content. rewrite truthy_strip, Hb. simpl.
  destruct (generate_content_reply w (prompt req)) as [[t]|e]; simpl;
    [|reflexivity].
  destruct t; reflexivity.
Qed.

Lemma run_generate_content_blank (w : world) (req : GenerateRequest) :
  blank (prompt req) = true ->
  run w (generate req)
  = ([], Raises (HTTPException 400 (lit "Prompt cannot be empty"))).
Proof.
  intros Hb. unfold generate_content. rewrite truthy_strip, Hb. reflexivity.
Qed.

Lemma run_list_models (w : world) :
  run w (list_models str_HTTPException)
  = match list_models_reply w with
    | Returns names =>
        ([EListModels], Returns [ (lit "models", JStrs names) ])
    | Raises e =>
        ([EListModels; ELog ERROR (lit "Error listing models: " ++ str_ e)],
         Raises (HTTPException 500 (lit "Error listing models: " ++ str_ e)))
    end.
Proof.
  unfold list_models. simpl. destruct (list_models_reply w); reflexivity.
Qed.

End Running.

(** ** The properties of the specification *)

Example recognized_actions_are :
  recognized_actions
  = [ lit "rewrite"; lit "summarize"; lit "expand"; lit "improve";
      lit "simplify" ].
Proof. reflexivity. Qed.

Section Claims.

Variable str_HTTPException : N -> pystr -> pystr.

Local Abbreviation str_ := (str str_HTTPException).
Local Abbreviation process := (process_text str_HTTPException).
Local Abbreviation generate := (generate_content str_HTTPException).

(** C1: for each of the five actions, with its template text [tpl], and
    every text whose trimmed form is not empty, [process_text] sends the
    hosted model exactly one prompt; that prompt starts with [tpl] and ends
    with the text as it was given, whatever the style. *)
Theorem process_text_prompt_template_then_text
    (w : world) (a tpl txt : pystr) (sty : option pystr) :
  In (a, tpl) templates ->
  strip txt <> [] ->
  exists p,
    built_prompt (mkTextRequest txt a sty) = Some p
    /\ api_calls (trace w (process (mkTextRequest txt a sty))) = [EGenerate p]
    /\ tpl `prefix_of` p
    /\ txt `suffix_of` p.
Proof.
  intros Ht Hs. set (req := mkTextRequest txt a sty).
  pose proof (built_prompt_recognized req tpl Ht) as Hp.
  assert (Hb : blank (text req) = false).
  { destruct (blank (text req)) eqn:E; [|reflexivity].
    apply strip_nil_blank in E. contradiction. }
  eexists. split; [exact Hp|]. split; [|split].
  - unfold trace. rewrite (run_process_text_valid _ w req _ Hb Hp). simpl.
    now rewrite api_calls_process_reply.
  - now eexists.
  - exists (tpl ++ style_modifier req ++ separator).
    now rewrite <- !app_assoc.
Qed.

(** C3: a request whose text is empty or made of white space only is
    answered with status 400, whatever its action and style, and the hosted
    model is not called. *)
Theorem process_text_blank_is_client_error (w : world) (req : TextRequest) :
  blank (text req) = true ->
  outcome w (process req)
    = Raises (HTTPException 400 (lit "Text cannot be empty"))
  /\ http_status (outcome w (process req)) = 400
  /\ api_calls (trace w (process req)) = [].
Proof.
  intros Hb. unfold outcome, trace.
  rewrite (run_process_text_blank _ w req Hb). now repeat split.
Qed.

(** C4: a request with a text that is not blank and an action outside the
    five is answered with status 400, the detail names the action, and the
    hosted model is not called. *)
Theorem process_text_unknown_action_is_client_error
    (w : world) (req : TextRequest) :
  blank (text req) = false ->
  ~ In (action req) recognized_actions ->
  outcome w (process req)
    = Raises (HTTPException 400 (lit "Unsupported action: " ++ action req))
  /\ http_status (outcome w (process req)) = 400
  /\ (exists d, http_detail (outcome w (process req)) = Some d
                /\ occurs_in (action req) d)
  /\ api_calls (trace w (process req)) = [].
Proof.
  intros Hb Ha. unfold outcome, trace.
  rewrite (run_process_text_unrecognized _ w req Hb Ha). cbn [fst snd].
  repeat split. eexists. split; [reflexivity|]. apply occurs_in_suffix.
Qed.

(** C5: when the call to the external API raises [e], each of
    [process_text], [generate_content] and [list_models] answers with status
    500 and a detail that ends with the message [str(e)]. *)
Theorem api_exception_is_server_error (w : world) (e : exn) :
  (forall req p,
     blank (text req) = false ->
     built_prompt req = Some p ->
     generate_content_reply w p = Raises e ->
     server_error_with (outcome w (process req))
       (lit "Error processing text: " ++ str_ e) (str_ e))
  /\ (forall req,
        blank (prompt req) = false ->
        generate_content_reply w (prompt req) = Raises e ->
        server_error_with (outcome w (generate req))
          (lit "Error generating content: " ++ str_ e) (str_ e))
  /\ (list_models_reply w = Raises e ->
      server_error_with (outcome w (list_models str_HTTPException))
        (lit "Error listing models: " ++ str_ e) (str_ e)).
Proof.
  unfold server_error_with, outcome. split; [|split].
  - intros req p Hb Hp He.
    rewrite (run_process_text_valid _ w req p Hb Hp), He.
    repeat split. apply occurs_in_suffix.
  - intros req Hb He.
    rewrite (run_generate_content_valid _ w req Hb), He.
    repeat split. apply occurs_in_suffix.
  - intros He. rewrite run_list_models, He.
    repeat split. apply occurs_in_suffix.
Qed.

(** C6: when the hosted model answers a valid process or generate request
    with an empty text, the handler answers with status 500 and returns no
    body; trace and outcome are those of the same request in a world where
    the call raises the handler's own "nothing generated" exception. *)
Theorem empty_model_text_is_server_error
    (w : world) (response : ModelResponse) :
  response_text response = [] ->
  (forall req p,
     blank (text req) = false ->
     built_prompt req = Some p ->
     generate_content_reply w p = Returns response ->
     let e := HTTPException 500 (lit "No response generated") in
     outcome w (process req)
       = Raises (HTTPException 500 (lit "Error processing text: " ++ str_ e))
     /\ http_status (outcome w (process req)) = 500
     /\ run w (process req) = run (raising_at w p e) (process req))
  /\ (forall req,
        blank (prompt req) = false ->
        generate_content_reply w (prompt req) = Returns response ->
        let e := HTTPException 500 (lit "No content generated") in
        outcome w (generate req)
          = Raises (HTTPException 500
                      (lit "Error generating content: " ++ str_ e))
        /\ http_status (outcome w (generate req)) = 500
        /\ run w (generate req)
           = run (raising_at w (prompt req) e) (generate req)).
Proof.
  intros Hempty. unfold outcome. split.
  - intros req p Hb Hp Hr. cbv zeta.
    rewrite !(run_process_text_valid _ _ req p Hb Hp), Hr.
    unfold raising_at; cbn [generate_content_reply].
    rewrite decide_True by reflexivity.
    unfold process_reply. rewrite Hempty. now repeat split.
  - intros req Hb Hr. cbv zeta.
    rewrite !(run_generate_content_valid _ _ req Hb), Hr.
    unfold raising_at; cbn [generate_content_reply].
    rewrite decide_True by reflexivity.
    unfold generate_reply. rewrite Hempty. now repeat split.
Qed.

(** C7: in every world, [health_check] returns the fixed body, which is
    answered with status 200, and performs no call at all. *)
Theorem health_check_fixed_payload (w : world) :
  run w health_check
    = ([], Returns [ (lit "status", JStr (lit "healthy"));
                     (lit "service", JStr (lit "Gemini Canvas App")) ])
  /\ http_status (outcome w health_check) = 200.
Proof. split; reflexivity. Qed.

(** C9: a request whose style is the empty string builds the prompt of the
    same request without a style, and makes the same interactions with the
    outside, in every world. *)
Theorem empty_style_is_no_style (w : world) (txt a : pystr) :
  built_prompt (mkTextRequest txt a (Some []))
    = built_prompt (mkTextRequest txt a None)
  /\ style_modifier (mkTextRequest txt a (Some [])) = []
  /\ trace w (process (mkTextRequest txt a (Some [])))
     = trace w (process (mkTextRequest txt a None)).
Proof.
  assert (Hp : built_prompt (mkTextRequest txt a (Some []))
               = built_prompt (mkTextRequest txt a None)) by reflexivity.
  split; [exact Hp|]. split; [reflexivity|].
  unfold trace.
  destruct (blank txt) eqn:Hb.
  - now rewrite !run_process_text_blank.
  - destruct (built_prompt (mkTextRequest txt a None)) as [p|] eqn:E.
    + rewrite (run_process_text_valid _ w (mkTextRequest txt a None) p Hb E).
      rewrite (run_process_text_valid _ w (mkTextRequest txt a (Some [])) p
                 Hb Hp).
      cbn [fst]. f_equal.
      destruct (generate_content_reply w p) as [[t]|e]; [|reflexivity].
      destruct t; reflexivity.
    + apply built_prompt_None in E, Hp.
      now rewrite !run_process_text_unrecognized.
Qed.

(** C10: two generate requests with the same prompt are the same handler
    body, whatever their [max_tokens]: the same call to the hosted model
    and the same answer in every world. *)
Theorem generate_content_ignores_max_tokens
    (w : world) (p : pystr) (m1 m2 : option Z) :
  generate (mkGenerateRequest p m1) = generate (mkGenerateRequest p m2)
  /\ run w (generate (mkGenerateRequest p m1))
     = run w (generate (mkGenerateRequest p default_max_tokens))
  /\ run w (generate (mkGenerateRequest p m1))
     = run w (generate (mkGenerateRequest p m2)).
Proof. repeat split. Qed.

End Claims.

(** ** The style clause *)

Lemma style_modifier_Some (req : TextRequest) (s : pystr) :
  style req = Some s -> s <> [] -> style_modifier req = style_clause s.
Proof.
  intros Hs Hne. unfold style_modifier. rewrite Hs.
  destruct s; [contradiction | reflexivity].
Qed.

Lemma style_modifier_None (req : TextRequest) :
  style req = None -> style_modifier req = [].
Proof. intros Hs. unfold style_modifier. now rewrite Hs. Qed.

Lemma template_has_no_tone (a tpl : pystr) :
  In (a, tpl) templates ->
  ~ occurs_in (lit " Make the tone ") (tpl ++ separator).
Proof.
  intros H. apply not_occurs_in. each_template H; vm_compute; reflexivity.
Qed.

(** C2, as the code has it: for a recognized action with template text
    [tpl], a style that is supplied and is not the empty string puts the
    clause " Make the tone {style}." right after [tpl], before the
    separator and the text; with the style left out nothing stands between
    [tpl] and the separator, and no tone clause occurs before the text. *)
Theorem style_clause_between_template_and_text
    (req : TextRequest) (tpl : pystr) :
  In (action req, tpl) templates ->
  (forall s, style req = Some s -> s <> [] ->
     built_prompt req
     = Some (tpl ++ style_clause s ++ separator ++ text req))
  /\ (style req = None ->
      built_prompt req = Some (tpl ++ separator ++ text req)
      /\ ~ occurs_in (lit " Make the tone ") (tpl ++ separator)).
Proof.
  intros Ht. pose proof (built_prompt_recognized req tpl Ht) as Hp. split.
  - intros s Hs Hne. now rewrite Hp, (style_modifier_Some req s Hs Hne).
  - intros Hs. rewrite Hp, (style_modifier_None req Hs). split.
    + reflexivity.
    + exact (template_has_no_tone _ _ Ht).
Qed.

(** C2 as stated fails when the supplied style is the empty string: the
    prompt for text "hi" and action "rewrite" then holds no clause
    " Make the tone .". *)
Lemma supplied_empty_style_inserts_no_clause :
  style (hi_request (Some [])) = Some []
  /\ exists p,
       built_prompt (hi_request (Some [])) = Some p
       /\ p = lit "Rewrite the following text in a clear, concise manner:"
              ++ NL ++ NL ++ lit "hi"
       /\ ~ occurs_in (style_clause []) p.
Proof.
  split; [reflexivity|]. eexists. split; [vm_compute; reflexivity|].
  split; [vm_compute; reflexivity|].
  apply not_occurs_in. vm_compute. reflexivity.
Qed.

(** ** Start-up *)

Lemma load_dotenv_keeps_set (dotenv_file env : environ) (k v : pystr) :
  env !! k = Some v -> load_dotenv dotenv_file env !! k = Some v.
Proof. intros H. unfold load_dotenv. now apply lookup_union_Some_l. Qed.

(** The service does not start when the key variable is unset or empty
    once the [.env] file has been read. *)
Lemma startup_without_key_fails (dotenv_file env : environ) :
  truthy_opt (getenv (load_dotenv dotenv_file env) GEMINI_API_KEY) = false ->
  startup dotenv_file env
  = StartupFailed (lit "GEMINI_API_KEY environment variable not set")
                  (lit "Please set GEMINI_API_KEY environment variable").
Proof. intros H. unfold startup. now rewrite H. Qed.

(** When the service starts, its key is the value of the variable. *)
Lemma startup_key_from_environment (dotenv_file env : environ) (s : service) :
  startup dotenv_file env = Started s ->
  getenv (load_dotenv dotenv_file env) GEMINI_API_KEY
    = Some (configured_api_key s)
  /\ configured_api_key s <> [].
Proof.
  unfold startup.
  destruct (getenv (load_dotenv dotenv_file env) GEMINI_API_KEY) as [k|];
    simpl; [|discriminate].
  destruct k; simpl; [discriminate|].
  intros H. injection H as <-. split; [reflexivity | discriminate].
Qed.

(** C8, on [app_streamlit.py]: with an empty environment and no [.env]
    file the service fails to start, yet the script, run with prompt "hi"
    and the button pressed, sends a request whose key is the literal of its
    source; the environment is not an input of the script at all. *)
Theorem app_streamlit_key_is_embedded_literal
    (embedded_key : pystr) (api : client_request -> pystr + pystr) :
  startup ∅ ∅
    = StartupFailed (lit "GEMINI_API_KEY environment variable not set")
                    (lit "Please set GEMINI_API_KEY environment variable")
  /\ fst (app_streamlit embedded_key api (lit "hi") true)
     = [ mkClientRequest embedded_key (lit "gemini-2.0-flash") (lit "hi") ].
Proof.
  split.
  - apply startup_without_key_fails. reflexivity.
  - unfold app_streamlit. change (truthy (lit "hi")) with true. cbv iota.
    destruct (api _); reflexivity.
Qed.

(** ** The properties at concrete requests *)

(** "hi", to be rewritten in a formal tone. *)
Lemma process_text_prompt_template_then_text_witness :
  In (lit "rewrite", rewrite_template) templates
  /\ strip (lit "hi") <> []
  /\ exists p,
       built_prompt (hi_request (Some (lit "formal"))) = Some p
       /\ api_calls (trace answering_world
                       (process_text detail_str
                          (hi_request (Some (lit "formal")))))
          = [EGenerate p]
       /\ rewrite_template `prefix_of` p
       /\ lit "hi" `suffix_of` p.
Proof.
  assert (H1 : In (lit "rewrite", rewrite_template) templates)
    by (left; reflexivity).
  assert (H2 : strip (lit "hi") <> []) by (vm_compute; discriminate).
  split; [exact H1|]. split; [exact H2|].
  exact (process_text_prompt_template_then_text detail_str answering_world
           (lit "rewrite") rewrite_template (lit "hi") (Some (lit "formal"))
           H1 H2).
Defined.

(** The same request with the style "formal" and without a style. *)
Lemma style_clause_between_template_and_text_witness :
  In (action (hi_request (Some (lit "formal"))), rewrite_template) templates
  /\ style (hi_request (Some (lit "formal"))) = Some (lit "formal")
  /\ lit "formal" <> []
  /\ built_prompt (hi_request (Some (lit "formal")))
     = Some (rewrite_template ++ style_clause (lit "formal") ++ separator
             ++ lit "hi")
  /\ style (hi_request None) = None
  /\ built_prompt (hi_request None)
     = Some (rewrite_template ++ separator ++ lit "hi").
Proof.
  assert (H1 : In (lit "rewrite", rewrite_template) templates)
    by (left; reflexivity).
  assert (H2 : lit "formal" <> []) by (vm_compute; discriminate).
  split; [exact H1|]. split; [reflexivity|]. split; [exact H2|].
  split.
  - exact (proj1 (style_clause_between_template_and_text
                    (hi_request (Some (lit "formal"))) rewrite_template H1)
             (lit "formal") eq_refl H2).
  - split; [reflexivity|].
    exact (proj1 (proj2 (style_clause_between_template_and_text
                           (hi_request None) rewrite_template H1) eq_refl)).
Defined.

(** A text of three spaces. *)
Lemma process_text_blank_is_client_error_witness :
  blank (text blank_request) = true
  /\ outcome answering_world (process_text detail_str blank_request)
     = Raises (HTTPException 400 (lit "Text cannot be empty"))
  /\ http_status (outcome answering_world
                    (process_text detail_str blank_request)) = 400
  /\ api_calls (trace answering_world (process_text detail_str blank_request))
     = [].
Proof.
  split; [reflexivity|].
  exact (process_text_blank_is_client_error detail_str answering_world
           blank_request eq_refl).
Defined.

Lemma unknown_not_recognized : ~ In (action unknown_request) recognized_actions.
Proof.
  intros H. vm_compute in H.
  repeat (destruct H as [H|H]; [discriminate H|]). exact H.
Defined.

(** The action "unknown". *)
Lemma process_text_unknown_action_is_client_error_witness :
  blank (text unknown_request) = false
  /\ ~ In (action unknown_request) recognized_actions
  /\ outcome answering_world (process_text detail_str unknown_request)
     = Raises (HTTPException 400 (lit "Unsupported action: " ++ lit "unknown"))
  /\ api_calls (trace answering_world
                  (process_text detail_str unknown_request)) = [].
Proof.
  split; [reflexivity|]. split; [exact unknown_not_recognized|].
  pose proof (process_text_unknown_action_is_client_error detail_str
                answering_world unknown_request eq_refl
                unknown_not_recognized) as (Ho & _ & _ & Ha).
  split; [exact Ho | exact Ha].
Defined.

(** The three handlers when every external call raises "quota exceeded". *)
Lemma api_exception_is_server_error_witness :
  (blank (text (hi_request None)) = false
   /\ built_prompt (hi_request None) = Some hi_prompt
   /\ generate_content_reply failing_world hi_prompt = Raises quota
   /\ server_error_with
        (outcome failing_world (process_text detail_str (hi_request None)))
        (lit "Error processing text: " ++ lit "quota exceeded")
        (lit "quota exceeded"))
  /\ (blank (lit "hi") = false
      /\ server_error_with
           (outcome failing_world
              (generate_content detail_str
                 (mkGenerateRequest (lit "hi") default_max_tokens)))
           (lit "Error generating content: " ++ lit "quota exceeded")
           (lit "quota exceeded"))
  /\ (list_models_reply failing_world = Raises quota
      /\ server_error_with
           (outcome failing_world (list_models detail_str))
           (lit "Error listing models: " ++ lit "quota exceeded")
           (lit "quota exceeded")).
Proof.
  pose proof (api_exception_is_server_error detail_str failing_world quota)
    as (Hp & Hg & Hl).
  assert (Hb : built_prompt (hi_request None) = Some hi_prompt)
    by (vm_compute; reflexivity).
  split; [|split].
  - split; [reflexivity|]. split; [exact Hb|]. split; [reflexivity|].
    exact (Hp (hi_request None) hi_prompt eq_refl Hb eq_refl).
  - split; [reflexivity|].
    exact (Hg (mkGenerateRequest (lit "hi") default_max_tokens)
              eq_refl eq_refl).
  - split; [reflexivity|]. exact (Hl eq_refl).
Defined.

(** The two handlers when the hosted model answers with an empty text. *)
Lemma empty_model_text_is_server_error_witness :
  response_text (mkModelResponse []) = []
  /\ http_status
       (outcome silent_world (process_text detail_str (hi_request None)))
     = 500
  /\ http_status
       (outcome silent_world
          (generate_content detail_str
             (mkGenerateRequest (lit "hi") default_max_tokens)))
     = 500.
Proof.
  pose proof (empty_model_text_is_server_error detail_str silent_world
                (mkModelResponse []) eq_refl) as (Hp & Hg).
  assert (Hb : built_prompt (hi_request None) = Some hi_prompt)
    by (vm_compute; reflexivity).
  split; [reflexivity|]. split.
  - exact (proj1 (proj2 (Hp (hi_request None) hi_prompt eq_refl Hb eq_refl))).
  - exact (proj1 (proj2 (Hg (mkGenerateRequest (lit "hi") default_max_tokens)
                           eq_refl eq_refl))).
Defined.

(** The handlers evaluated on the worlds above. *)
Example built_prompt_rewrite :
  built_prompt (mkTextRequest (lit "hi") (lit "rewrite") (Some (lit "formal")))
  = Some (lit "Rewrite the following text in a clear, concise manner Make the tone formal.:"
          ++ [10; 10] ++ lit "hi").
Proof. vm_compute. reflexivity. Qed.

Example process_text_answers :
  run answering_world (process_text detail_str (hi_request (Some (lit "formal"))))
  = ([ EGenerate (rewrite_template ++ lit " Make the tone formal." ++ separator
                  ++ lit "hi");
       ELog INFO (lit "Successfully processed text with action: rewrite") ],
     Returns [ (lit "result", JStr (lit "ok"));
               (lit "action", JStr (lit "rewrite"));
               (lit "style", JStr (lit "formal")) ]).
Proof. vm_compute. reflexivity. Qed.

Example process_text_keeps_outer_spaces :
  trace answering_world
    (process_text detail_str (mkTextRequest (lit "  hi ") (lit "summarize") None))
  = [ EGenerate (lit "Summarize the following text concisely:" ++ NL ++ NL
                 ++ lit "  hi ");
      ELog INFO (lit "Successfully processed text with action: summarize") ].
Proof. vm_compute. reflexivity. Qed.

Example process_text_silent :
  run silent_world (process_text detail_str (hi_request None))
  = ([ EGenerate hi_prompt;
       ELog ERROR (lit "Error processing text: No response generated") ],
     Raises (HTTPException 500
               (lit "Error processing text: No response generated"))).
Proof. vm_compute. reflexivity. Qed.

Example list_models_answers :
  run answering_world (list_models detail_str)
  = ([EListModels],
     Returns [ (lit "models", JStrs [lit "models/gemini-2.5-flash"]) ]).
Proof. vm_compute. reflexivity. Qed.

Example startup_with_key :
  startup ∅ {[ GEMINI_API_KEY := lit "k" ]}
  = Started (mkService (lit "k") (lit "gemini-2.5-flash")).
Proof. vm_compute. reflexivity. Qed.

Example startup_with_empty_key :
  startup ∅ {[ GEMINI_API_KEY := [] ]}
  = StartupFailed (lit "GEMINI_API_KEY environment variable not set")
                  (lit "Please set GEMINI_API_KEY environment variable").
Proof. vm_compute. reflexivity. Qed.

Example strip_example :
  strip (lit "  a b  ") = lit "a b" /\ strip [12288; 9; 10] = [].
Proof. split; vm_compute; reflexivity. Qed.

(** * Further properties of the code *)

(** ** The handlers beyond validation *)

Section MoreHandlers.

Variable str_HTTPException : N -> pystr -> pystr.

Local Abbreviation str_ := (str str_HTTPException).
Local Abbreviation process := (process_text str_HTTPException).
Local Abbreviation generate := (generate_content str_HTTPException).
Local Abbreviation models := (list_models str_HTTPException).

Lemma api_calls_generate_reply (req : GenerateRequest) (r : reply ModelResponse) :
  api_calls (fst (generate_reply str_HTTPException req r)) = [].
Proof.
  destruct r as [[t]|e]; simpl; [|reflexivity]. destruct t; reflexivity.
Qed.

Lemma api_calls_cons_generate (p : pystr) (t : list event) :
  api_calls (EGenerate p :: t) = EGenerate p :: api_calls t.
Proof. reflexivity. Qed.

(** X1: a generate request whose prompt is empty or made of white space
    only is answered with status 400 and "Prompt cannot be empty", whatever
    its [max_tokens]; nothing is called and nothing is logged. *)
Theorem generate_content_blank_is_client_error
    (w : world) (req : GenerateRequest) :
  blank (prompt req) = true ->
  run w (generate req)
    = ([], Raises (HTTPException 400 (lit "Prompt cannot be empty")))
  /\ http_status (outcome w (generate req)) = 400.
Proof.
  intros Hb. unfold outcome.
  rewrite (run_generate_content_blank _ w req Hb). split; reflexivity.
Qed.

(** X2: a generate request whose prompt is not blank makes exactly one call
    to the hosted model, and that call carries the prompt as it was given:
    no template, no trimming, whatever the model then answers. *)
Theorem generate_content_sends_raw_prompt
    (w : world) (req : GenerateRequest) :
  blank (prompt req) = false ->
  api_calls (trace w (generate req)) = [EGenerate (prompt req)].
Proof.
  intros Hb. unfold trace.
  rewrite (run_generate_content_valid _ w req Hb). cbn [fst].
  now rewrite api_calls_cons_generate, api_calls_generate_reply.
Qed.

(** X3: when the hosted model answers a valid generate request with a text
    that is not empty, the handler returns that text under "result" and
    echoes the prompt under "prompt", unchanged, with status 200. *)
Theorem generate_content_success
    (w : world) (req : GenerateRequest) (response : ModelResponse) :
  blank (prompt req) = false ->
  generate_content_reply w (prompt req) = Returns response ->
  response_text response <> [] ->
  outcome w (generate req)
    = Returns [ (lit "result", JStr (response_text response));
                (lit "prompt", JStr (prompt req)) ]
  /\ http_status (outcome w (generate req)) = 200.
Proof.
  intros Hb Hr Ht. unfold outcome.
  rewrite (run_generate_content_valid _ w req Hb), Hr.
  unfold generate_reply.
  destruct (response_text response); [contradiction|]. split; reflexivity.
Qed.

(** X4: when the hosted model answers a valid process request with a text
    that is not empty, the handler returns that text under "result" and
    echoes the action and the style as they were given: an absent style as
    null, an empty style as the empty string. *)
Theorem process_text_success
    (w : world) (req : TextRequest) (p : pystr) (response : ModelResponse) :
  blank (text req) = false ->
  built_prompt req = Some p ->
  generate_content_reply w p = Returns response ->
  response_text response <> [] ->
  outcome w (process req)
    = Returns [ (lit "result", JStr (response_text response));
                (lit "action", JStr (action req));
                (lit "style", opt_json (style req)) ]
  /\ http_status (outcome w (process req)) = 200.
Proof.
  intros Hb Hp Hr Ht. unfold outcome.
  rewrite (run_process_text_valid _ w req p Hb Hp), Hr.
  unfold process_reply.
  destruct (response_text response); [contradiction|]. split; reflexivity.
Qed.

(** X5: [process_text] answers with status 200 exactly when the text is not
    blank, the action has an entry in [prompt_map], and the hosted model
    returns a text that is not empty for the built prompt. *)
Theorem process_text_ok_iff (w : world) (req : TextRequest) :
  http_status (outcome w (process req)) = 200
  <-> blank (text req) = false
      /\ exists p response,
           built_prompt req = Some p
           /\ generate_content_reply w p = Returns response
           /\ response_text response <> [].
Proof.
  unfold outcome. split.
  - destruct (blank (text req)) eqn:Hb.
    { rewrite (run_process_text_blank _ w req Hb). discriminate. }
    destruct (built_prompt req) as [p|] eqn:Hp.
    + rewrite (run_process_text_valid _ w req p Hb Hp).
      destruct (generate_content_reply w p) as [response|e] eqn:Hr;
        [|discriminate].
      unfold process_reply.
      destruct (response_text response) eqn:Ht; [discriminate|].
      intros _. split; [reflexivity|]. exists p, response.
      split; [reflexivity|]. split; [exact Hr|].
      rewrite Ht. discriminate.
    + apply built_prompt_None in Hp.
      rewrite (run_process_text_unrecognized _ w req Hb Hp). discriminate.
  - intros (Hb & p & response & Hp & Hr & Ht).
    rewrite (run_process_text_valid _ w req p Hb Hp), Hr.
    unfold process_reply.
    destruct (response_text response); [contradiction | reflexivity].
Qed.


(** X7: no handler calls the external API more than once for a request:
    there is no retry, whatever the API answers. *)
Theorem handlers_call_at_most_once
    (w : world) (treq : TextRequest) (greq : GenerateRequest) :
  (length (api_calls (trace w (process treq))) <= 1)%nat
  /\ (length (api_calls (trace w (generate greq))) <= 1)%nat
  /\ api_calls (trace w models) = [EListModels].
Proof.
  unfold trace. repeat split.
  - destruct (blank (text treq)) eqn:Hb.
    { rewrite (run_process_text_blank _ w treq Hb). simpl. lia. }
    destruct (built_prompt treq) as [p|] eqn:Hp.
    + rewrite (run_process_text_valid _ w treq p Hb Hp).
      cbn [fst].
      rewrite api_calls_cons_generate, api_calls_process_reply. simpl. lia.
    + apply built_prompt_None in Hp.
      rewrite (run_process_text_unrecognized _ w treq Hb Hp). simpl. lia.
  - destruct (blank (prompt greq)) eqn:Hb.
    { rewrite (run_generate_content_blank _ w greq Hb). simpl. lia. }
    rewrite (run_generate_content_valid _ w greq Hb). cbn [fst].
    rewrite api_calls_cons_generate, api_calls_generate_reply. simpl. lia.
  - rewrite run_list_models. destruct (list_models_reply w); reflexivity.
Qed.

(** X8: validation errors are not logged; a status 500 is logged once, at
    ERROR level, with the very detail string it is answered with; a success
    of [process_text] or [generate_content] is logged once at INFO level,
    a success of [list_models] is not logged. *)
Theorem handlers_logging
    (w : world) (treq : TextRequest) (greq : GenerateRequest) :
  log_lines (trace w (process treq))
    = logged_for [ELog INFO (lit "Successfully processed text with action: "
                             ++ action treq)]
        (outcome w (process treq))
  /\ log_lines (trace w (generate greq))
     = logged_for [ELog INFO (lit "Successfully generated new content")]
         (outcome w (generate greq))
  /\ log_lines (trace w models) = logged_for [] (outcome w models).
Proof.
  unfold trace, outcome. repeat split.
  - destruct (blank (text treq)) eqn:Hb.
    { now rewrite (run_process_text_blank _ w treq Hb). }
    destruct (built_prompt treq) as [p|] eqn:Hp.
    + rewrite (run_process_text_valid _ w treq p Hb Hp).
      destruct (generate_content_reply w p) as [[t]|e]; [|reflexivity].
      destruct t; reflexivity.
    + apply built_prompt_None in Hp.
      now rewrite (run_process_text_unrecognized _ w treq Hb Hp).
  - destruct (blank (prompt greq)) eqn:Hb.
    { now rewrite (run_generate_content_blank _ w greq Hb). }
    rewrite (run_generate_content_valid _ w greq Hb).
    destruct (generate_content_reply w (prompt greq)) as [[t]|e];
      [|reflexivity].
    destruct t; reflexivity.
  - rewrite run_list_models. destruct (list_models_reply w); reflexivity.
Qed.

(** X9: a body returned by [process_text] or [generate_content] never
    carries an empty result: its "result" field is a string with at least
    one code point. *)
Theorem returned_result_not_empty
    (w : world) (treq : TextRequest) (greq : GenerateRequest) :
  (forall b, outcome w (process treq) = Returns b ->
     exists t, In (lit "result", JStr t) b /\ t <> [])
  /\ (forall b, outcome w (generate greq) = Returns b ->
        exists t, In (lit "result", JStr t) b /\ t <> []).
Proof.
  unfold outcome. split; intros b.
  - destruct (blank (text treq)) eqn:Hb.
    { rewrite (run_process_text_blank _ w treq Hb). discriminate. }
    destruct (built_prompt treq) as [p|] eqn:Hp.
    + rewrite (run_process_text_valid _ w treq p Hb Hp).
      destruct (generate_content_reply w p) as [[t]|e]; [|discriminate].
      destruct t as [|c t]; [discriminate|].
      intros H. injection H as <-. exists (c :: t).
      split; [now left | discriminate].
    + apply built_prompt_None in Hp.
      rewrite (run_process_text_unrecognized _ w treq Hb Hp). discriminate.
  - destruct (blank (prompt greq)) eqn:Hb.
    { rewrite (run_generate_content_blank _ w greq Hb). discriminate. }
    rewrite (run_generate_content_valid _ w greq Hb).
    destruct (generate_content_reply w (prompt greq)) as [[t]|e];
      [|discriminate].
    destruct t as [|c t]; [discriminate|].
    intros H. injection H as <-. exists (c :: t).
    split; [now left | discriminate].
Qed.

(** X10: when the listing call returns, [list_models] answers with status
    200 and the model names as they came, in order, under "models"; an
    empty listing is a success too, and nothing is logged. *)
Theorem list_models_success (w : world) (names : list pystr) :
  list_models_reply w = Returns names ->
  run w models = ([EListModels], Returns [ (lit "models", JStrs names) ])
  /\ http_status (outcome w models) = 200.
Proof.
  intros H. unfold outcome. rewrite run_list_models, H. split; reflexivity.
Qed.

End MoreHandlers.

(** ** What a prompt tells about its request *)

Lemma style_modifier_text_irrelevant (t1 t2 a : pystr) (sty : option pystr) :
  style_modifier (mkTextRequest t1 a sty)
  = style_modifier (mkTextRequest t2 a sty).
Proof. reflexivity. Qed.

Lemma built_prompt_Some_template (req : TextRequest) (p : pystr) :
  built_prompt req = Some p ->
  exists tpl,
    In (action req, tpl) templates
    /\ p = tpl ++ style_modifier req ++ separator ++ text req.
Proof.
  intros Hp.
  destruct (in_dec (fun x y : pystr => decide (x = y))
              (action req) recognized_actions) as [HI|HI].
  - apply recognized_has_template in HI as [tpl HI]. exists tpl.
    rewrite (built_prompt_recognized _ _ HI) in Hp. injection Hp as <-.
    now split.
  - apply built_prompt_unrecognized in HI. congruence.
Qed.

(** X11: the action can be read off the prompt: two requests that build
    the same prompt have the same action, whatever their texts and styles
    (the five template texts differ within their first two characters). *)
Theorem built_prompt_determines_action (r1 r2 : TextRequest) (p : pystr) :
  built_prompt r1 = Some p ->
  built_prompt r2 = Some p ->
  action r1 = action r2.
Proof.
  intros H1 H2.
  apply built_prompt_Some_template in H1 as (t1 & HI1 & E1).
  apply built_prompt_Some_template in H2 as (t2 & HI2 & E2).
  rewrite E1 in E2. clear E1.
  remember (action r1) as a1 eqn:Ha1. remember (action r2) as a2 eqn:Ha2.
  clear Ha1 Ha2.
  remember (style_modifier r1 ++ separator ++ text r1) as rest1.
  remember (style_modifier r2 ++ separator ++ text r2) as rest2.
  apply (f_equal (firstn 2)) in E2.
  each_template HI1; each_template HI2;
    first [ reflexivity | vm_compute in E2; discriminate E2 ].
Qed.

(** X12: for a recognized action and a given style, the text can be read
    off the prompt: two texts that build the same prompt are equal (nothing
    is cut off or rewritten). *)
Theorem built_prompt_determines_text (t1 t2 a : pystr) (sty : option pystr) :
  In a recognized_actions ->
  built_prompt (mkTextRequest t1 a sty) = built_prompt (mkTextRequest t2 a sty) ->
  t1 = t2.
Proof.
  intros Ha. apply recognized_has_template in Ha as [tpl Ha].
  rewrite (built_prompt_recognized (mkTextRequest t1 a sty) tpl Ha).
  rewrite (built_prompt_recognized (mkTextRequest t2 a sty) tpl Ha).
  rewrite (style_modifier_text_irrelevant t1 t2 a sty).
  change (text (mkTextRequest t1 a sty)) with t1.
  change (text (mkTextRequest t2 a sty)) with t2.
  intros H. injection H as H.
  apply (app_inv_head tpl) in H.
  apply (app_inv_head (style_modifier (mkTextRequest t2 a sty))) in H.
  now apply (app_inv_head separator) in H.
Qed.

(** X13: style and text are not kept apart in the prompt: the style is put
    in unescaped, so a style that ends with ".", the separator and some
    text [x] builds, with text [t], the prompt that the style alone builds
    with the text [x], ".", the separator and [t].  The two requests are
    different. *)
Theorem style_can_carry_text (a tpl s x t : pystr) :
  In (a, tpl) templates ->
  s <> [] ->
  let r1 := mkTextRequest (x ++ lit "." ++ separator ++ t) a (Some s) in
  let r2 := mkTextRequest t a (Some (s ++ lit "." ++ separator ++ x)) in
  r1 <> r2
  /\ built_prompt r1 = built_prompt r2
  /\ built_prompt r2
     = Some (tpl ++ lit " Make the tone " ++ s ++ lit "." ++ separator
             ++ x ++ lit "." ++ separator ++ t).
Proof.
  intros Ha Hs r1 r2.
  assert (H1 : built_prompt r1
               = Some (tpl ++ lit " Make the tone " ++ s ++ lit "." ++ separator
                       ++ x ++ lit "." ++ separator ++ t)).
  { rewrite (built_prompt_recognized r1 tpl Ha).
    rewrite (style_modifier_Some r1 s eq_refl Hs). unfold style_clause.
    change (text r1) with (x ++ lit "." ++ separator ++ t).
    now rewrite <- !app_assoc. }
  assert (H2 : built_prompt r2
               = Some (tpl ++ lit " Make the tone " ++ s ++ lit "." ++ separator
                       ++ x ++ lit "." ++ separator ++ t)).
  { rewrite (built_prompt_recognized r2 tpl Ha).
    rewrite (style_modifier_Some r2 (s ++ lit "." ++ separator ++ x) eq_refl).
    - unfold style_clause. change (text r2) with t.
      now rewrite <- !app_assoc.
    - destruct s; [contradiction | discriminate]. }
  split; [|split]; [| congruence | exact H2].
  intros E. apply (f_equal style) in E. cbn [style r1 r2] in E.
  injection E as E. rewrite <- (app_nil_r s) in E at 1.
  apply app_inv_head in E. vm_compute in E. discriminate E.
Qed.

(** ** Start-up of the service *)

(** X14: the service starts exactly when, once the [.env] file has been
    read, the key variable holds a string that is not empty; it is then
    configured with that very string and the model "gemini-2.5-flash". *)
Theorem startup_started_iff (dotenv_file env : environ) (s : service) :
  startup dotenv_file env = Started s
  <-> exists k,
        getenv (load_dotenv dotenv_file env) GEMINI_API_KEY = Some k
        /\ k <> []
        /\ s = mkService k (lit "gemini-2.5-flash").
Proof.
  unfold startup.
  destruct (getenv (load_dotenv dotenv_file env) GEMINI_API_KEY) as [k|];
    [destruct k as [|c k]|]; simpl.
  - split; [discriminate | intros (k & H & Hk & _); congruence].
  - split.
    + intros H. injection H as <-. exists (c :: k). now repeat split.
    + intros (k' & H & _ & ->). now injection H as <-.
  - split; [discriminate | intros (k & H & _); discriminate].
Qed.


(** ** The interactive script *)

(** X16: the script sends a request only when the button was pressed and
    the prompt is not the empty string; it then sends exactly one, to
    "gemini-2.0-flash", with the prompt as typed, whatever the API
    answers. *)
Theorem app_streamlit_requests
    (embedded_key : pystr) (api : client_request -> pystr + pystr)
    (p : pystr) (submit : bool) :
  fst (app_streamlit embedded_key api p submit)
  = if submit && truthy p
    then [ mkClientRequest embedded_key (lit "gemini-2.0-flash") p ]
    else [].
Proof.
  unfold app_streamlit. destruct submit; [|reflexivity].
  destruct (truthy p); [|reflexivity]. simpl.
  destruct (api _); reflexivity.
Qed.

(** X17: the two entry points treat a prompt of white space differently:
    the script tests the prompt without trimming it and sends it to the
    hosted model, the service's [generate_content] refuses it with status
    400 and calls nothing. *)
Theorem whitespace_prompt_script_sends_service_refuses
    (embedded_key : pystr) (api : client_request -> pystr + pystr)
    (str_HTTPException : N -> pystr -> pystr) (w : world)
    (p : pystr) (m : option Z) :
  p <> [] ->
  blank p = true ->
  fst (app_streamlit embedded_key api p true)
    = [ mkClientRequest embedded_key (lit "gemini-2.0-flash") p ]
  /\ run w (generate_content str_HTTPException (mkGenerateRequest p m))
     = ([], Raises (HTTPException 400 (lit "Prompt cannot be empty"))).
Proof.
  intros Hne Hb. split.
  - unfold app_streamlit. destruct p; [contradiction|]. simpl.
    destruct (api _); reflexivity.
  - now apply run_generate_content_blank.
Qed.

(** ** The test page against the service *)

Lemma isspace_iff (c : N) :
  isspace c = true
  <-> (9 <= c <= 13) \/ (28 <= c <= 32) \/ c = 133 \/ c = 160 \/ c = 5760
      \/ (8192 <= c <= 8202) \/ c = 8232 \/ c = 8233 \/ c = 8239
      \/ c = 8287 \/ c = 12288.
Proof.
  unfold isspace.
  rewrite !orb_true_iff, !andb_true_iff, !N.leb_le, !N.eqb_eq. tauto.
Qed.

Lemma js_whitespace_iff (c : N) :
  js_whitespace c = true
  <-> (9 <= c <= 13) \/ c = 32 \/ c = 160 \/ c = 5760
      \/ (8192 <= c <= 8202) \/ c = 8232 \/ c = 8233 \/ c = 8239
      \/ c = 8287 \/ c = 12288 \/ c = 65279.
Proof.
  unfold js_whitespace.
  rewrite !orb_true_iff, !andb_true_iff, !N.leb_le, !N.eqb_eq. tauto.
Qed.

Lemma python_only_space_iff (c : N) :
  python_only_space c = true <-> (28 <= c <= 31) \/ c = 133.
Proof.
  unfold python_only_space.
  rewrite !orb_true_iff, !andb_true_iff, !N.leb_le, !N.eqb_eq. tauto.
Qed.

(** A code point that Python strips is stripped by the page too, unless it
    is one of the five of [python_only_space]. *)
Lemma isspace_js_whitespace (c : N) :
  isspace c = true -> python_only_space c = false -> js_whitespace c = true.
Proof.
  intros Hp Ho. apply isspace_iff in Hp. apply js_whitespace_iff.
  assert (Hn : ~ ((28 <= c <= 31) \/ c = 133)).
  { intros H. apply python_only_space_iff in H. congruence. }
  lia.
Qed.

Lemma js_trimStart_whitespace (s : pystr) :
  forallb js_whitespace s = true -> js_trimStart s = [].
Proof.
  induction s as [|c s IH]; simpl; [reflexivity|].
  destruct (js_whitespace c); [exact IH | discriminate].
Qed.

Lemma js_trim_whitespace (s : pystr) :
  forallb js_whitespace s = true -> js_trim s = [].
Proof.
  intros H. unfold js_trim. now rewrite (js_trimStart_whitespace s H).
Qed.

Lemma processText_fetch (txt a sty : pystr) (req : TextRequest) :
  processText txt a sty = fetch_process req ->
  truthy (js_trim txt) = true /\ req = mkTextRequest txt a (Some sty).
Proof.
  unfold processText. destruct (truthy (js_trim txt)); simpl.
  - intros H. now injection H as <-.
  - discriminate.
Qed.

(** The options of the action control are the keys of [prompt_map]. *)
Lemma action_options_recognized : action_options = recognized_actions.
Proof. reflexivity. Qed.

(** X18: the page never runs into "Unsupported action": a request it sends
    for one of the options of its action control has an entry in
    [prompt_map], so the only status 400 the service can answer it with is
    the one for an empty text. *)
Theorem page_request_action_supported
    (str_HTTPException : N -> pystr -> pystr) (w : world)
    (txt a sty : pystr) (req : TextRequest) :
  In a action_options ->
  processText txt a sty = fetch_process req ->
  In (action req) recognized_actions
  /\ (http_status (outcome w (process_text str_HTTPException req)) = 400 ->
      outcome w (process_text str_HTTPException req)
      = Raises (HTTPException 400 (lit "Text cannot be empty"))).
Proof.
  intros Ha Hf. apply processText_fetch in Hf as [_ ->].
  rewrite action_options_recognized in Ha. split; [exact Ha|].
  set (req := mkTextRequest txt a (Some sty)). unfold outcome.
  destruct (blank (text req)) eqn:Hb.
  { now rewrite (run_process_text_blank _ w req Hb). }
  apply recognized_has_template in Ha as [tpl Ha].
  rewrite (run_process_text_valid _ w req _ Hb
             (built_prompt_recognized req tpl Ha)).
  destruct (generate_content_reply w _) as [[t]|e]; [|discriminate].
  destruct t; discriminate.
Qed.

(** X19: with the style control left on "Default" the page sends the empty
    string as style; the prompt the service builds is then the template
    text, the separator and the text, without a tone clause. *)
Theorem page_default_style_no_clause
    (txt a tpl : pystr) (req : TextRequest) :
  In (a, tpl) templates ->
  processText txt a (lit "") = fetch_process req ->
  style req = Some []
  /\ built_prompt req = Some (tpl ++ separator ++ txt).
Proof.
  intros Ha Hf. apply processText_fetch in Hf as [_ ->].
  split; [reflexivity|].
  now rewrite (built_prompt_recognized
                 (mkTextRequest txt a (Some (lit ""))) tpl Ha).
Qed.

(** X20: the page's own check and the service's check agree except on five
    control characters: a text the page sends, and that holds none of the
    code points U+001C to U+001F and U+0085, is not refused by the service
    as empty. *)
Theorem page_check_implies_service_check
    (txt a sty : pystr) (req : TextRequest) :
  processText txt a sty = fetch_process req ->
  (forall c, In c txt -> python_only_space c = false) ->
  blank (text req) = false /\ strip (text req) <> [].
Proof.
  intros Hf Hc. apply processText_fetch in Hf as [Ht ->]. cbn [text].
  assert (Hb : blank txt = false).
  { destruct (blank txt) eqn:Hb; [|reflexivity]. exfalso.
    assert (Hjs : forallb js_whitespace txt = true).
    { apply forallb_forall. intros c Hin.
      apply isspace_js_whitespace; [|now apply Hc].
      unfold blank in Hb. rewrite forallb_forall in Hb. now apply Hb. }
    rewrite (js_trim_whitespace txt Hjs) in Ht. discriminate. }
  split; [exact Hb|]. intros Hs. apply strip_nil_blank in Hs. congruence.
Qed.

(** A text of one U+001C passes the page's check and is refused by the
    service; a text of one byte order mark is refused by the page and would
    pass the service's check. *)
Example page_and_service_checks_differ :
  processText [28] (lit "rewrite") (lit "")
    = fetch_process (mkTextRequest [28] (lit "rewrite") (Some []))
  /\ blank [28] = true
  /\ processText [65279] (lit "rewrite") (lit "")
     = alert (lit "Please enter some text")
  /\ blank [65279] = false.
Proof. repeat split. Qed.

(** ** The further properties at concrete requests *)

(** A prompt of two spaces. *)
Lemma generate_content_blank_is_client_error_witness :
  blank (prompt (mkGenerateRequest (lit "  ") default_max_tokens)) = true
  /\ run answering_world
       (generate_content detail_str
          (mkGenerateRequest (lit "  ") default_max_tokens))
     = ([], Raises (HTTPException 400 (lit "Prompt cannot be empty"))).
Proof.
  split; [reflexivity|].
  exact (proj1 (generate_content_blank_is_client_error detail_str
                  answering_world
                  (mkGenerateRequest (lit "  ") default_max_tokens) eq_refl)).
Defined.

(** A prompt with outer spaces reaches the hosted model with them. *)
Lemma generate_content_sends_raw_prompt_witness :
  blank (prompt (mkGenerateRequest (lit " hi ") None)) = false
  /\ api_calls (trace failing_world
                  (generate_content detail_str
                     (mkGenerateRequest (lit " hi ") None)))
     = [EGenerate (lit " hi ")].
Proof.
  split; [reflexivity|].
  exact (generate_content_sends_raw_prompt detail_str failing_world
           (mkGenerateRequest (lit " hi ") None) eq_refl).
Defined.

Lemma lit_ok_not_empty : response_text (mkModelResponse (lit "ok")) <> [].
Proof. intros H. vm_compute in H. discriminate H. Defined.

Lemma generate_content_success_witness :
  blank (lit "hi") = false
  /\ generate_content_reply answering_world (lit "hi")
     = Returns (mkModelResponse (lit "ok"))
  /\ response_text (mkModelResponse (lit "ok")) <> []
  /\ outcome answering_world
       (generate_content detail_str (mkGenerateRequest (lit "hi") None))
     = Returns [ (lit "result", JStr (lit "ok"));
                 (lit "prompt", JStr (lit "hi")) ].
Proof.
  split; [reflexivity|]. split; [reflexivity|].
  split; [exact lit_ok_not_empty|].
  exact (proj1 (generate_content_success detail_str answering_world
                  (mkGenerateRequest (lit "hi") None)
                  (mkModelResponse (lit "ok")) eq_refl eq_refl
                  lit_ok_not_empty)).
Defined.

Lemma hi_prompt_built : built_prompt (hi_request None) = Some hi_prompt.
Proof. vm_compute. reflexivity. Defined.

Lemma process_text_success_witness :
  blank (text (hi_request None)) = false
  /\ built_prompt (hi_request None) = Some hi_prompt
  /\ generate_content_reply answering_world hi_prompt
     = Returns (mkModelResponse (lit "ok"))
  /\ response_text (mkModelResponse (lit "ok")) <> []
  /\ outcome answering_world (process_text detail_str (hi_request None))
     = Returns [ (lit "result", JStr (lit "ok"));
                 (lit "action", JStr (lit "rewrite"));
                 (lit "style", JNull) ].
Proof.
  split; [reflexivity|]. split; [exact hi_prompt_built|].
  split; [reflexivity|]. split; [exact lit_ok_not_empty|].
  exact (proj1 (process_text_success detail_str answering_world
                  (hi_request None) hi_prompt (mkModelResponse (lit "ok"))
                  eq_refl hi_prompt_built eq_refl lit_ok_not_empty)).
Defined.

Lemma returned_result_not_empty_witness :
  outcome answering_world (process_text detail_str (hi_request None))
    = Returns [ (lit "result", JStr (lit "ok"));
                (lit "action", JStr (lit "rewrite"));
                (lit "style", JNull) ]
  /\ exists t,
       In (lit "result", JStr t)
          [ (lit "result", JStr (lit "ok"));
            (lit "action", JStr (lit "rewrite"));
            (lit "style", JNull) ]
       /\ t <> [].
Proof.
  assert (H : outcome answering_world
                (process_text detail_str (hi_request None))
              = Returns [ (lit "result", JStr (lit "ok"));
                          (lit "action", JStr (lit "rewrite"));
                          (lit "style", JNull) ])
    by (vm_compute; reflexivity).
  split; [exact H|].
  exact (proj1 (returned_result_not_empty detail_str answering_world
                  (hi_request None) (mkGenerateRequest (lit "hi") None))
           _ H).
Defined.

Lemma list_models_success_witness :
  list_models_reply answering_world = Returns [lit "models/gemini-2.5-flash"]
  /\ run answering_world (list_models detail_str)
     = ([EListModels],
        Returns [ (lit "models", JStrs [lit "models/gemini-2.5-flash"]) ]).
Proof.
  split; [reflexivity|].
  exact (proj1 (list_models_success detail_str answering_world
                  [lit "models/gemini-2.5-flash"] eq_refl)).
Defined.

(** Two requests for "rewrite" with the same text, one of them giving the
    empty style. *)
Lemma built_prompt_determines_action_witness :
  built_prompt (hi_request None) = Some hi_prompt
  /\ built_prompt (hi_request (Some [])) = Some hi_prompt
  /\ action (hi_request None) = action (hi_request (Some [])).
Proof.
  assert (H2 : built_prompt (hi_request (Some [])) = Some hi_prompt)
    by (vm_compute; reflexivity).
  split; [exact hi_prompt_built|]. split; [exact H2|].
  exact (built_prompt_determines_action (hi_request None)
           (hi_request (Some [])) hi_prompt hi_prompt_built H2).
Defined.

Lemma rewrite_recognized : In (lit "rewrite") recognized_actions.
Proof. left. reflexivity. Defined.

Lemma rewrite_has_template : In (lit "rewrite", rewrite_template) templates.
Proof. left. reflexivity. Defined.

Lemma built_prompt_determines_text_witness :
  In (lit "rewrite") recognized_actions
  /\ built_prompt (mkTextRequest (lit "hi") (lit "rewrite") None)
     = built_prompt (mkTextRequest (lit "hi") (lit "rewrite") None)
  /\ lit "hi" = lit "hi".
Proof.
  split; [exact rewrite_recognized|]. split; [reflexivity|].
  exact (built_prompt_determines_text (lit "hi") (lit "hi") (lit "rewrite")
           None rewrite_recognized eq_refl).
Defined.

Lemma lit_formal_not_empty : lit "formal" <> [].
Proof. intros H. vm_compute in H. discriminate H. Defined.

(** The style "formal" with text "urgent.:\n\nhi" against the style
    "formal.:\n\nurgent" with text "hi". *)
Lemma style_can_carry_text_witness :
  In (lit "rewrite", rewrite_template) templates
  /\ lit "formal" <> []
  /\ built_prompt
       (mkTextRequest (lit "urgent" ++ lit "." ++ separator ++ lit "hi")
          (lit "rewrite") (Some (lit "formal")))
     = built_prompt
         (mkTextRequest (lit "hi") (lit "rewrite")
            (Some (lit "formal" ++ lit "." ++ separator ++ lit "urgent"))).
Proof.
  split; [exact rewrite_has_template|]. split; [exact lit_formal_not_empty|].
  exact (proj1 (proj2 (style_can_carry_text (lit "rewrite") rewrite_template
                         (lit "formal") (lit "urgent") (lit "hi")
                         rewrite_has_template lit_formal_not_empty))).
Defined.


Lemma three_spaces_not_empty : lit "   " <> [].
Proof. intros H. vm_compute in H. discriminate H. Defined.

(** A prompt of three spaces, with a key "k" and an API that echoes. *)
Lemma whitespace_prompt_script_sends_service_refuses_witness :
  lit "   " <> []
  /\ blank (lit "   ") = true
  /\ fst (app_streamlit (lit "k") (fun r => inl (contents r)) (lit "   ") true)
     = [ mkClientRequest (lit "k") (lit "gemini-2.0-flash") (lit "   ") ]
  /\ run answering_world
       (generate_content detail_str (mkGenerateRequest (lit "   ") None))
     = ([], Raises (HTTPException 400 (lit "Prompt cannot be empty"))).
Proof.
  split; [exact three_spaces_not_empty|]. split; [reflexivity|].
  exact (whitespace_prompt_script_sends_service_refuses (lit "k")
           (fun r => inl (contents r)) detail_str answering_world
           (lit "   ") None three_spaces_not_empty eq_refl).
Defined.

Lemma page_sends_hi :
  processText (lit "hi") (lit "rewrite") (lit "")
  = fetch_process (hi_request (Some [])).
Proof. reflexivity. Defined.

Lemma rewrite_is_option : In (lit "rewrite") action_options.
Proof. left. reflexivity. Defined.

Lemma page_request_action_supported_witness :
  In (lit "rewrite") action_options
  /\ processText (lit "hi") (lit "rewrite") (lit "")
     = fetch_process (hi_request (Some []))
  /\ In (action (hi_request (Some []))) recognized_actions.
Proof.
  split; [exact rewrite_is_option|]. split; [exact page_sends_hi|].
  exact (proj1 (page_request_action_supported detail_str answering_world
                  (lit "hi") (lit "rewrite") (lit "") (hi_request (Some []))
                  rewrite_is_option page_sends_hi)).
Defined.

Lemma page_default_style_no_clause_witness :
  In (lit "rewrite", rewrite_template) templates
  /\ processText (lit "hi") (lit "rewrite") (lit "")
     = fetch_process (hi_request (Some []))
  /\ built_prompt (hi_request (Some []))
     = Some (rewrite_template ++ separator ++ lit "hi").
Proof.
  split; [exact rewrite_has_template|]. split; [exact page_sends_hi|].
  exact (proj2 (page_default_style_no_clause (lit "hi") (lit "rewrite")
                  rewrite_template (hi_request (Some []))
                  rewrite_has_template page_sends_hi)).
Defined.

Lemma hi_has_no_python_only_space (c : N) :
  In c (lit "hi") -> python_only_space c = false.
Proof.
  intros H. vm_compute in H.
  destruct H as [<-|[<-|[]]]; reflexivity.
Defined.

Lemma page_check_implies_service_check_witness :
  processText (lit "hi") (lit "rewrite") (lit "")
    = fetch_process (hi_request (Some []))
  /\ (forall c, In c (lit "hi") -> python_only_space c = false)
  /\ blank (text (hi_request (Some []))) = false.
Proof.
  split; [exact page_sends_hi|]. split; [exact hi_has_no_python_only_space|].
  exact (proj1 (page_check_implies_service_check (lit "hi") (lit "rewrite")
                  (lit "") (hi_request (Some [])) page_sends_hi
                  hi_has_no_python_only_space)).
Defined.
